(** * mcp-server: the GitHub OAuth bridge of [server.js]

    A shallow embedding of the Express application of [src/server.js]:
    the process-wide credential slot [githubAccessToken], the six routes
    and their handlers, and the outbound calls they make through [fetch].

    Handlers are written in a small state-and-exception monad whose state
    holds what a handler can touch: the credential slot, the [res] object
    of the request, the outbound calls issued so far and the console.
    Requests are served one after the other; interleaving of handlers at
    their [await] points is outside this model. *)

From Stdlib Require Import Ascii.
From stdpp Require Import base strings list gmap pretty.

Local Open Scope string_scope.
Set Warnings "-register-all".

(** ** JavaScript values *)

(** The numbers of the JSON documents the server receives are IEEE doubles.
    The handlers never compute with them: they test them for truthiness,
    print them inside a template literal and re-serialise them.  Those
    three operations are what the embedding asks of a number type. *)
Class JsNumber := {
  number : Type;
  (* ToBoolean: false exactly on +0, -0 and NaN *)
  num_truthy : number → bool;
  (* Number.isFinite *)
  num_finite : number → bool;
  (* Number::toString in radix 10 *)
  num_toString : number → string;
}.

(** A completion record: a JS expression either yields a value or throws. *)
Inductive Completion (A : Type) : Type :=
  | Normal (a : A)
  | Throws.
Arguments Normal {A} a.
Arguments Throws {A}.

Section js_values.
Context `{JsNumber}.

(** What [JSON.parse] and the query-string parser can produce, together
    with [undefined] and [null].  An object is the list of its own
    enumerable properties in the order JS enumerates them. *)
Inductive JsVal : Type :=
  | JUndef
  | JNull
  | JBool (b : bool)
  | JNum (n : number)
  | JStr (s : string)
  | JArr (l : list JsVal)
  | JObj (kvs : list (string * JsVal)).

(** ToBoolean, as used by [!x], [if (x)] and [x || y]. *)
Definition truthy (v : JsVal) : bool :=
  match v with
  | JUndef | JNull => false
  | JBool b => b
  | JNum n => num_truthy n
  | JStr s => if s is EmptyString then false else true
  | JArr _ | JObj _ => true
  end.

(** [a || b] *)
Definition js_or (a b : JsVal) : JsVal := if truthy a then a else b.

(** Own property lookup. *)
Fixpoint own (k : string) (kvs : list (string * JsVal)) : option JsVal :=
  match kvs with
  | [] => None
  | (k', v) :: rest => if decide (k = k') then Some v else own k rest
  end.

(** The member access [v.k] for a key [k] that no prototype defines and
    that is neither an index nor [length]: the keys the handlers read
    ([code], [error], [error_description], [access_token]) are of this
    kind.  Reading a member of [undefined] or [null] throws a TypeError;
    on the other primitives and on arrays the member is [undefined]. *)
Definition getField (v : JsVal) (k : string) : Completion JsVal :=
  match v with
  | JUndef | JNull => Throws
  | JObj kvs => Normal (default JUndef (own k kvs))
  | JBool _ | JNum _ | JStr _ | JArr _ => Normal JUndef
  end.

Definition join (sep : string) (l : list string) : string :=
  match l with
  | [] => EmptyString
  | x :: rest => foldl (λ acc y, acc +:+ sep +:+ y) x rest
  end.

(** ToString, as applied by a template literal.  [None] stands for the
    TypeError raised when an object cannot be converted to a primitive:
    a parsed object whose own [toString] member shadows
    [Object.prototype.toString] with a value that is not callable. *)
Fixpoint toString (v : JsVal) : option string :=
  match v with
  | JUndef => Some "undefined"
  | JNull => Some "null"
  | JBool b => Some (if b then "true" else "false")
  | JNum n => Some (num_toString n)
  | JStr s => Some s
  | JArr l =>
      join "," <$>
        (fix elems (l : list JsVal) : option (list string) :=
           match l with
           | [] => Some []
           | x :: rest =>
               match (match x with
                      | JUndef | JNull => Some EmptyString
                      | _ => toString x
                      end) with
               | Some s => cons s <$> elems rest
               | None => None
               end
           end) l
  | JObj kvs =>
      match own "toString" kvs with
      | Some _ => None
      | None => Some "[object Object]"
      end
  end.

(** *** [JSON.stringify] *)

Definition chr (n : N) : string := String (Ascii.ascii_of_N n) EmptyString.
Definition dquote : string := chr 34.
Definition backslash : string := chr 92.
Definition newline : string := chr 10.

Definition hex_digit (n : N) : string :=
  match n with
  | 0 => "0" | 1 => "1" | 2 => "2" | 3 => "3" | 4 => "4" | 5 => "5"
  | 6 => "6" | 7 => "7" | 8 => "8" | 9 => "9" | 10 => "a" | 11 => "b"
  | 12 => "c" | 13 => "d" | 14 => "e" | _ => "f"
  end%N.

(** QuoteJSONString on one code unit.  Strings are kept as UTF-8 bytes,
    so every byte from 0x80 on belongs to a character that is copied. *)
Definition json_escape (c : ascii) : string :=
  let n := Ascii.N_of_ascii c in
  if (n =? 34)%N then backslash +:+ dquote
  else if (n =? 92)%N then backslash +:+ backslash
  else if (n =? 8)%N then backslash +:+ "b"
  else if (n =? 9)%N then backslash +:+ "t"
  else if (n =? 10)%N then backslash +:+ "n"
  else if (n =? 12)%N then backslash +:+ "f"
  else if (n =? 13)%N then backslash +:+ "r"
  else if (n <? 32)%N then
    backslash +:+ "u00" +:+ hex_digit (n / 16) +:+ hex_digit (n mod 16)
  else String c EmptyString.

Fixpoint json_escape_all (s : string) : string :=
  match s with
  | EmptyString => EmptyString
  | String c rest => json_escape c +:+ json_escape_all rest
  end.

Definition json_quote (s : string) : string :=
  dquote +:+ json_escape_all s +:+ dquote.

(** SerializeJSONProperty for a value that is not [undefined] at top
    level: inside an array [undefined] prints as [null], inside an object
    a member whose value is [undefined] is left out. *)
Fixpoint json_text (v : JsVal) : string :=
  match v with
  | JUndef | JNull => "null"
  | JBool b => if b then "true" else "false"
  | JNum n => if num_finite n then num_toString n else "null"
  | JStr s => json_quote s
  | JArr l => "[" +:+ join "," (map json_text l) +:+ "]"
  | JObj kvs =>
      "{" +:+
      join ","
        ((fix members (kvs : list (string * JsVal)) : list string :=
            match kvs with
            | [] => []
            | (k, x) :: rest =>
                match x with
                | JUndef => members rest
                | _ => (json_quote k +:+ ":" +:+ json_text x) :: members rest
                end
            end) kvs)
      +:+ "}"
  end.

Definition JSON_stringify (v : JsVal) : option string :=
  match v with
  | JUndef => None
  | _ => Some (json_text v)
  end.

(** [`${JSON.stringify(v)}`] *)
Definition stringify_in_template (v : JsVal) : string :=
  default "undefined" (JSON_stringify v).

End js_values.

(** ** The Express objects a handler works with *)

Section express.
Context `{JsNumber}.

(** What ends a response: [res.send(text)], [res.json(value)], or the
    notice Express writes after [res.redirect(url)]. *)
Inductive Payload : Type :=
  | Text (s : string)
  | Json (v : JsVal)
  | RedirectNotice.

(** The [res] object: status (200 until set), the headers the handler
    set itself, whether they were flushed, the chunks of [res.write] and
    the final payload, if the handler ended the response. *)
Record Response : Type := mkResponse {
  statusCode : Z;
  headers : list (string * string);
  headersSent : bool;
  written : list string;
  ended : option Payload;
}.

Definition fresh_res : Response := mkResponse 200 [] false [] None.

(** An outbound request, as handed to [fetch]. *)
Record OutReq : Type := mkOutReq {
  url : string;
  method : string;
  req_headers : list (string * string);
  req_body : option string;
}.

(** What a [fetch] comes to: the promise rejects (network failure, bad
    header value), or it resolves to a response whose [.json()] yields the
    parsed body or rejects on a body that is not JSON. *)
Inductive FetchResult : Type :=
  | FetchRejects
  | FetchResolves (status : Z) (json : Completion JsVal).

(** The upstream, seen from one handler run. *)
Definition Upstream : Type := OutReq → FetchResult.

(** What a handler reads and writes. *)
Record HState : Type := mkHState {
  githubAccessToken : JsVal;
  res : Response;
  outbound : list OutReq;
  console : list string;
}.

Definition Handler (A : Type) : Type := HState → Completion A * HState.

#[export] Instance handler_ret : MRet Handler := λ A a s, (Normal a, s).
#[export] Instance handler_bind : MBind Handler := λ A B f m s,
  match m s with
  | (Normal a, s') => f a s'
  | (Throws, s') => (Throws, s')
  end.

Definition lift {A} (c : Completion A) : Handler A := λ s, (c, s).

(** [try { body } catch (err) { handler }]: what [body] did before it
    threw stays done. *)
Definition try_catch (body handler : Handler unit) : Handler unit := λ s,
  match body s with
  | (Normal a, s') => (Normal a, s')
  | (Throws, s') => handler s'
  end.

Definition with_res (f : Response → Response) : Handler unit := λ s,
  (Normal (), mkHState (githubAccessToken s) (f (res s)) (outbound s) (console s)).

Definition res_status (c : Z) : Handler unit :=
  with_res (λ r, mkResponse c (headers r) (headersSent r) (written r) (ended r)).
Definition res_set (hs : list (string * string)) : Handler unit :=
  with_res (λ r, mkResponse (statusCode r) (headers r ++ hs) (headersSent r) (written r) (ended r)).
Definition res_flushHeaders : Handler unit :=
  with_res (λ r, mkResponse (statusCode r) (headers r) true (written r) (ended r)).
Definition res_write (chunk : string) : Handler unit :=
  with_res (λ r, mkResponse (statusCode r) (headers r) true (written r ++ [chunk]) (ended r)).
Definition res_send (s : string) : Handler unit :=
  with_res (λ r, mkResponse (statusCode r) (headers r) true (written r) (Some (Text s))).
Definition res_json (v : JsVal) : Handler unit :=
  with_res (λ r, mkResponse (statusCode r) (headers r) true (written r) (Some (Json v))).
Definition res_redirect (target : string) : Handler unit :=
  with_res (λ r, mkResponse 302 (headers r ++ [("Location", target)]) true (written r)
                   (Some RedirectNotice)).

Definition console_log (line : string) : Handler unit := λ s,
  (Normal (), mkHState (githubAccessToken s) (res s) (outbound s) (console s ++ [line])).
Definition console_error : string → Handler unit := console_log.

Definition read_token : Handler JsVal := λ s, (Normal (githubAccessToken s), s).
Definition write_token (v : JsVal) : Handler unit := λ s,
  (Normal (), mkHState v (res s) (outbound s) (console s)).

(** [await fetch(...)] against the upstream [up]: the call is recorded,
    then the promise rejects or resolves. *)
Definition js_fetch (up : Upstream) (r : OutReq) : Handler (Z * Completion JsVal) := λ s,
  let s' := mkHState (githubAccessToken s) (res s) (outbound s ++ [r]) (console s) in
  match up r with
  | FetchRejects => (Throws, s')
  | FetchResolves status json => (Normal (status, json), s')
  end.

(** [await response.json()] *)
Definition response_json (r : Z * Completion JsVal) : Handler JsVal := lift r.2.

(** A template literal hole: throws where ToString does. *)
Definition interpolate (v : JsVal) : Handler string :=
  lift (match toString v with Some s => Normal s | None => Throws end).

End express.

(** ** The application *)

(** [URLSearchParams.prototype.toString]: the form-urlencoded byte
    serialiser. *)
Definition HEX_digit (n : N) : string :=
  match n with
  | 0 => "0" | 1 => "1" | 2 => "2" | 3 => "3" | 4 => "4" | 5 => "5"
  | 6 => "6" | 7 => "7" | 8 => "8" | 9 => "9" | 10 => "A" | 11 => "B"
  | 12 => "C" | 13 => "D" | 14 => "E" | _ => "F"
  end%N.

Definition form_byte (c : ascii) : string :=
  let n := N_of_ascii c in
  if (n =? 32)%N then "+"
  else if ((48 <=? n) && (n <=? 57) || (65 <=? n) && (n <=? 90)
           || (97 <=? n) && (n <=? 122)
           || (n =? 42) || (n =? 45) || (n =? 46) || (n =? 95))%N
  then String c EmptyString
  else "%" +:+ HEX_digit (n / 16) +:+ HEX_digit (n mod 16).

Fixpoint form_encode (s : string) : string :=
  match s with
  | EmptyString => EmptyString
  | String c rest => form_byte c +:+ form_encode rest
  end.

Definition URLSearchParams_toString (params : list (string * string)) : string :=
  join "&" (map (λ p, form_encode p.1 +:+ "=" +:+ form_encode p.2) params).

(** The routes, in the order [server.js] registers them. *)
Inductive Verb : Type := GET | POST.

Inductive Route : Type :=
  | AuthGithub
  | AuthGithubCallback
  | Sse
  | Root
  | ListRepos
  | GetUser.

Definition route_verb (r : Route) : Verb :=
  match r with
  | AuthGithub | AuthGithubCallback | Sse | Root => GET
  | ListRepos | GetUser => POST
  end.

Definition route_path (r : Route) : string :=
  match r with
  | AuthGithub => "/auth/github"
  | AuthGithubCallback => "/auth/github/callback"
  | Sse => "/sse"
  | Root => "/"
  | ListRepos => "/listRepos"
  | GetUser => "/getUser"
  end.

Definition routes : list Route :=
  [AuthGithub; AuthGithubCallback; Sse; Root; ListRepos; GetUser].

Definition is_post (r : Route) : bool :=
  match route_verb r with POST => true | GET => false end.

Section app.
Context `{JsNumber}.

(** [process.env] *)
Variable env : gmap string string.

(** An environment variable used as a condition or as the left side of
    [||]: unset and empty both count as absent. *)
Definition env_truthy (k : string) : option string :=
  match env !! k with
  | Some (String c rest) => Some (String c rest)
  | Some EmptyString | None => None
  end.

(** [process.env.BASE_URL || `http://localhost:${process.env.PORT || 10000}`] *)
Definition BASE_URL : string :=
  match env_truthy "BASE_URL" with
  | Some base => base
  | None => "http://localhost:" +:+ default "10000" (env_truthy "PORT")
  end.

(** GET /auth/github *)
Definition auth_github : Handler unit :=
  match env_truthy "GITHUB_CLIENT_ID" with
  | None =>
      res_status 500;; res_send "GitHub client ID not configured"
  | Some clientId =>
      let scopes := join " " ["repo"; "read:user"] in
      let params :=
        [("client_id", clientId);
         ("redirect_uri", BASE_URL +:+ "/auth/github/callback");
         ("scope", scopes);
         ("allow_signup", "true")] in
      res_redirect ("https://github.com/login/oauth/authorize?"
                    +:+ URLSearchParams_toString params)
  end.

(** GET /auth/github/callback *)
Definition auth_github_callback (up : Upstream) (query : gmap string JsVal)
    : Handler unit :=
  let code := default JUndef (query !! "code") in
  if negb (truthy code) then
    res_status 400;; res_send "Missing OAuth code"
  else
    match env_truthy "GITHUB_CLIENT_ID", env_truthy "GITHUB_CLIENT_SECRET" with
    | Some clientId, Some clientSecret =>
        try_catch
          (tokenRes ← js_fetch up
             (mkOutReq "https://github.com/login/oauth/access_token" "POST"
                [("Accept", "application/json");
                 ("Content-Type", "application/json")]
                (JSON_stringify
                   (JObj [("client_id", JStr clientId);
                          ("client_secret", JStr clientSecret);
                          ("code", code)])));
           data ← response_json tokenRes;
           error ← lift (getField data "error");
           if truthy error then
             error_description ← lift (getField data "error_description");
             res_status 400;;
             res_json (JObj [("error", js_or error_description error)])
           else
             access_token ← lift (getField data "access_token");
             write_token access_token;;
             console_log "GitHub OAuth successful, token acquired";;
             res_send "GitHub OAuth success! You can close this tab.")
          (console_error "Error exchanging GitHub code for token";;
           res_status 500;; res_send "Failed to retrieve access token")
    | _, _ =>
        res_status 500;; res_send "GitHub client credentials not configured"
    end.

(** GET /sse *)
Definition sse_tools : JsVal :=
  JObj
    [("listRepos",
      JObj [("description", JStr "List the authenticated user's GitHub repositories");
            ("parameters",
             JObj [("type", JStr "object");
                   ("properties", JObj []);
                   ("required", JArr [])])]);
     ("getUser",
      JObj [("description", JStr "Get the authenticated user's GitHub profile information");
            ("parameters",
             JObj [("type", JStr "object");
                   ("properties", JObj []);
                   ("required", JArr [])])])].

Definition sse_payload : JsVal :=
  JObj [("message", JStr "GitHub tools ready"); ("tools", sse_tools)].

Definition sse : Handler unit :=
  res_set
    [("Content-Type", "text/event-stream");
     ("Cache-Control", "no-cache");
     ("Connection", "keep-alive")];;
  res_flushHeaders;;
  res_write ("data: " +:+ stringify_in_template sse_payload +:+ newline +:+ newline).

(** GET / *)
Definition root_tools : JsVal :=
  JObj
    [("listRepos",
      JObj [("description", JStr "List the authenticated user's GitHub repositories");
            ("parameters",
             JObj [("type", JStr "object");
                   ("properties", JObj []);
                   ("required", JArr [])])]);
     ("getUser",
      JObj [("description", JStr "Get the authenticated user's GitHub profile information");
            ("parameters",
             JObj [("type", JStr "object");
                   ("properties", JObj []);
                   ("required", JArr [])])])].

Definition root_payload : JsVal :=
  JObj [("message", JStr "GitHub tools ready"); ("tools", root_tools)].

Definition root : Handler unit :=
  res_set
    [("Content-Type", "text/event-stream");
     ("Cache-Control", "no-cache");
     ("Connection", "keep-alive")];;
  res_flushHeaders;;
  res_write ("data: " +:+ stringify_in_template root_payload +:+ newline +:+ newline).

(** POST /listRepos *)
Definition listRepos (up : Upstream) : Handler unit :=
  token ← read_token;
  if negb (truthy token) then
    res_status 401;; res_json (JObj [("error", JStr "GitHub OAuth required")])
  else
    try_catch
      (authorization ← interpolate token;
       ghRes ← js_fetch up
         (mkOutReq "https://api.github.com/user/repos" "GET"
            [("Authorization", "token " +:+ authorization);
             ("User-Agent", "mcp-server")]
            None);
       repos ← response_json ghRes;
       res_json repos)
      (console_error "Error fetching GitHub repos";;
       res_status 500;;
       res_json (JObj [("error", JStr "Failed to fetch repositories")])).

(** POST /getUser *)
Definition getUser (up : Upstream) : Handler unit :=
  token ← read_token;
  if negb (truthy token) then
    res_status 401;; res_json (JObj [("error", JStr "GitHub OAuth required")])
  else
    try_catch
      (authorization ← interpolate token;
       ghRes ← js_fetch up
         (mkOutReq "https://api.github.com/user" "GET"
            [("Authorization", "token " +:+ authorization);
             ("User-Agent", "mcp-server")]
            None);
       user ← response_json ghRes;
       res_json user)
      (console_error "Error fetching GitHub user";;
       res_status 500;;
       res_json (JObj [("error", JStr "Failed to fetch user")])).

(** *** Serving requests *)

Record Request : Type := mkRequest {
  target : Route;
  query : gmap string JsVal;
}.

Definition handler_of (up : Upstream) (req : Request) : Handler unit :=
  match target req with
  | AuthGithub => auth_github
  | AuthGithubCallback => auth_github_callback up (query req)
  | Sse => sse
  | Root => root
  | ListRepos => listRepos up
  | GetUser => getUser up
  end.

(** What serving one request comes to: the response, the credential slot
    afterwards, the outbound calls issued and the console lines. *)
Record Served : Type := mkServed {
  response : Response;
  completion : Completion unit;
  holder : JsVal;
  calls : list OutReq;
  logs : list string;
}.

(** One request against the slot value [token], with the upstream as it
    answers during this request. *)
Definition serve (req : Request) (up : Upstream) (token : JsVal) : Served :=
  let '(c, s) := handler_of up req (mkHState token fresh_res [] []) in
  mkServed (res s) c (githubAccessToken s) (outbound s) (console s).

(** The process: [githubAccessToken] starts as [null] and requests are
    served in turn, each seeing the slot as the previous one left it. *)
Fixpoint run (token : JsVal) (trace : list (Request * Upstream)) : list Served :=
  match trace with
  | [] => []
  | (req, up) :: rest =>
      let o := serve req up token in
      o :: run (holder o) rest
  end.

Definition initial_token : JsVal := JNull.

End app.

(** ** Vocabulary of the statements *)

(** Numbers restricted to the integers, printed in decimal: enough to
    write concrete JSON documents. *)
Definition int_numbers : JsNumber :=
  {| number := Z;
     num_truthy := λ z, negb (z =? 0)%Z;
     num_finite := λ _, true;
     num_toString := pretty |}.

Section vocabulary.
Context `{JsNumber}.

(** The tool names a discovery payload advertises: the keys of its
    [tools] member. *)
Definition advertised (payload : JsVal) : list string :=
  match getField payload "tools" with
  | Normal (JObj tools) => tools.*1
  | _ => []
  end.

(** The routes that invoke a tool. *)
Definition invocation_routes : list Route := filter (λ r, is_post r = true) routes.

(** The upstream endpoint behind an invocation route. *)
Definition endpoint (r : Route) : string :=
  match r with
  | ListRepos => "https://api.github.com/user/repos"
  | GetUser => "https://api.github.com/user"
  | _ => EmptyString
  end.

(** The call an invocation route issues for the header value [auth]. *)
Definition api_call (r : Route) (auth : string) : OutReq :=
  mkOutReq (endpoint r) "GET"
    [("Authorization", auth); ("User-Agent", "mcp-server")] None.

(** The token request of the callback route. *)
Definition token_call (clientId clientSecret : string) (code : JsVal) : OutReq :=
  mkOutReq "https://github.com/login/oauth/access_token" "POST"
    [("Accept", "application/json"); ("Content-Type", "application/json")]
    (JSON_stringify
       (JObj [("client_id", JStr clientId);
              ("client_secret", JStr clientSecret);
              ("code", code)])).

(** [req.query.code] *)
Definition code_of (q : gmap string JsVal) : JsVal := default JUndef (q !! "code").

Definition unauthenticated : Response :=
  mkResponse 401 [] true [] (Some (Json (JObj [("error", JStr "GitHub OAuth required")]))).

Definition missing_code : Response :=
  mkResponse 400 [] true [] (Some (Text "Missing OAuth code")).

Definition not_configured : Response :=
  mkResponse 500 [] true [] (Some (Text "GitHub client credentials not configured")).

Definition oauth_success : Response :=
  mkResponse 200 [] true [] (Some (Text "GitHub OAuth success! You can close this tab.")).

(** The token endpoint answers the exchange of [req.query.code] with a
    document [data] (the process being configured and the code present). *)
Definition exchange_answers (env : gmap string string)
    (q : gmap string JsVal) (up : Upstream) (data : JsVal) : Prop :=
  ∃ clientId clientSecret status,
    env_truthy env "GITHUB_CLIENT_ID" = Some clientId ∧
    env_truthy env "GITHUB_CLIENT_SECRET" = Some clientSecret ∧
    truthy (code_of q) = true ∧
    up (token_call clientId clientSecret (code_of q))
      = FetchResolves status (Normal data).

(** An exchange that grants the credential [T]: the answer reports no
    error and its [access_token] is [T]. *)
Definition exchange_grants (env : gmap string string)
    (q : gmap string JsVal) (up : Upstream) (T : JsVal) : Prop :=
  ∃ data e,
    exchange_answers env q up data ∧
    getField data "error" = Normal e ∧ truthy e = false ∧
    getField data "access_token" = Normal T.

End vocabulary.

(** ** Sample data *)

Module Sample.

Definition value : Type := @JsVal int_numbers.
Definition upstream : Type := @Upstream int_numbers.

Definition configured : gmap string string :=
  {[ "GITHUB_CLIENT_ID" := "id"; "GITHUB_CLIENT_SECRET" := "secret" ]}.
Definition unconfigured : gmap string string := ∅.

Definition no_query : gmap string value := ∅.
Definition with_code (c : string) : gmap string value := {[ "code" := JStr c ]}.

Definition null : value := initial_token.
Definition token (t : string) : value := JStr t.

Definition unreachable : upstream := λ _, FetchRejects.
Definition answering (data : value) : upstream := λ _, FetchResolves 200 (Normal data).

(** [[{"id":1,"name":"repo-a"}]] *)
Definition repos : value :=
  JArr [JObj [("id", JNum (1%Z : @number int_numbers)); ("name", JStr "repo-a")]].

(** [{"access_token":t}] *)
Definition grant (t : string) : value := JObj [("access_token", JStr t)].

(** [{"error":"access_denied"}] *)
Definition access_denied : value := JObj [("error", JStr "access_denied")].

(** [{"token_type":"bearer"}] *)
Definition no_token : value := JObj [("token_type", JStr "bearer")].

(** An answer whose [error] member is the empty string and whose
    [access_token] member is [gho_b]. *)
Definition blank_error : value :=
  JObj [("error", JStr EmptyString); ("access_token", JStr "gho_b")].

Definition callback (q : gmap string value) : @Request int_numbers :=
  mkRequest AuthGithubCallback q.
Definition invoke (r : Route) : @Request int_numbers := mkRequest r no_query.

End Sample.

(** ** Vocabulary of the further properties *)

Section observations.
Context `{JsNumber}.

(** Occurrences of a character in a string. *)
Fixpoint count_char (c : ascii) (s : string) : nat :=
  match s with
  | EmptyString => 0
  | String c' rest => (if decide (c = c') then 1 else 0) + count_char c rest
  end.

Fixpoint string_forall (P : ascii → bool) (s : string) : bool :=
  match s with
  | EmptyString => true
  | String c rest => P c && string_forall P rest
  end.

(** The characters a form-urlencoded text is made of: letters, digits,
    [*], [-], [.], [_], and the [+] and [%] of the encoding itself. *)
Definition form_safe (c : ascii) : bool :=
  let n := N_of_ascii c in
  ((48 <=? n) && (n <=? 57) || (65 <=? n) && (n <=? 90)
   || (97 <=? n) && (n <=? 122)
   || (n =? 42) || (n =? 45) || (n =? 46) || (n =? 95)
   || (n =? 43) || (n =? 37))%N.

(** The reading of a form-urlencoded text on the receiving side. *)
Definition hex_value (c : ascii) : option N :=
  let n := N_of_ascii c in
  if ((48 <=? n) && (n <=? 57))%N then Some (n - 48)%N
  else if ((65 <=? n) && (n <=? 70))%N then Some (n - 55)%N
  else None.

Fixpoint form_decode (s : string) : string :=
  match s with
  | EmptyString => EmptyString
  | String c rest =>
      if (N_of_ascii c =? 43)%N then String (ascii_of_N 32) (form_decode rest)
      else if (N_of_ascii c =? 37)%N then
        match rest with
        | String a (String b rest') =>
            match hex_value a, hex_value b with
            | Some x, Some y => String (ascii_of_N (16 * x + y)) (form_decode rest')
            | _, _ => String c (form_decode rest)
            end
        | _ => String c (form_decode rest)
        end
      else String c (form_decode rest)
  end.

(** A control character (below U+0020), among them the line breaks. *)
Definition raw_control (c : ascii) : bool := (N_of_ascii c <? 32)%N.

Definition single_line (s : string) : bool :=
  string_forall (λ c, negb (raw_control c)) s.

(** Every number inside a value prints on a single line (as the decimal
    notation of a double does). *)
Fixpoint numbers_print_plainly (v : JsVal) : bool :=
  match v with
  | JNum n => single_line (num_toString n)
  | JArr l => forallb numbers_print_plainly l
  | JObj kvs => forallb (λ kv, numbers_print_plainly kv.2) kvs
  | _ => true
  end.

(** The value of a header in a header list. *)
Fixpoint header (name : string) (hs : list (string * string)) : option string :=
  match hs with
  | [] => None
  | (k, v) :: rest => if decide (name = k) then Some v else header name rest
  end.

Definition is_discovery (r : Route) : bool :=
  match r with Sse | Root => true | _ => false end.

(** The answer of the callback when the exchange itself fails. *)
Definition exchange_failed : Response :=
  mkResponse 500 [] true [] (Some (Text "Failed to retrieve access token")).

(** The answer of an invocation route when the upstream call fails. *)
Definition fetch_failed (r : Route) : Response :=
  mkResponse 500 [] true []
    (Some (Json (JObj [("error",
                        JStr (match r with
                              | ListRepos => "Failed to fetch repositories"
                              | _ => "Failed to fetch user"
                              end))]))).

(** The upstream call of a handler comes to nothing: the promise rejects
    or the body is not JSON. *)
Definition upstream_fails (up : Upstream) (call : OutReq) : Prop :=
  up call = FetchRejects ∨ ∃ status, up call = FetchResolves status Throws.

(** Two upstreams that answer alike but for the HTTP status of their
    responses. *)
Definition same_bodies (up up' : Upstream) : Prop :=
  ∀ call,
    match up call, up' call with
    | FetchRejects, FetchRejects => True
    | FetchResolves _ json, FetchResolves _ json' => json = json'
    | _, _ => False
    end.

(** The callback route is served a code on a configured process: the
    situation in which it calls the token endpoint. *)
Definition exchange_attempted (env : gmap string string)
    (q : gmap string JsVal) (clientId clientSecret : string) : Prop :=
  env_truthy env "GITHUB_CLIENT_ID" = Some clientId ∧
  env_truthy env "GITHUB_CLIENT_SECRET" = Some clientSecret ∧
  truthy (code_of q) = true.

End observations.

(** ** Invocation *)

(** Unfolds a served request down to the primitive operations. *)
Ltac run_handler :=
  cbv [serve handler_of listRepos getUser auth_github_callback sse root
       read_token write_token interpolate response_json js_fetch lift
       try_catch res_status res_send res_json res_set res_flushHeaders
       res_write console_log console_error with_res
       mbind handler_bind mret handler_ret
       target query res githubAccessToken outbound console fresh_res
       statusCode headers headersSent written ended].

(** A falsy slot stops an invocation at its first statement. *)
Lemma invocation_without_token `{JsNumber} env r q up tok :
  is_post r = true → truthy tok = false →
  serve env (mkRequest r q) up tok = mkServed unauthenticated (Normal ()) tok [] [].
Proof.
  intros Hr Htok.
  destruct r; try discriminate Hr; run_handler; rewrite Htok; reflexivity.
Qed.

(** With a printable credential an invocation issues its one call,
    whatever the upstream then does, and never writes the slot. *)
Lemma invocation_with_token `{JsNumber} env r q up tok auth :
  is_post r = true → truthy tok = true → toString tok = Some auth →
  let o := serve env (mkRequest r q) up tok in
  holder o = tok ∧ calls o = [api_call r ("token " +:+ auth)].
Proof.
  intros Hr Htok Hauth.
  destruct r; try discriminate Hr; run_handler; rewrite Htok, Hauth; cbn;
    unfold api_call, endpoint.
  - destruct (up _) as [|status [v|]]; cbn; auto.
  - destruct (up _) as [|status [v|]]; cbn; auto.
Qed.

(** [githubAccessToken] is assigned in the callback handler only. *)
Lemma only_callback_writes `{JsNumber} env req up tok :
  target req ≠ AuthGithubCallback → holder (serve env req up tok) = tok.
Proof.
  destruct req as [r q]; cbn [target]; intros Hr.
  destruct r; try congruence; cbv [serve handler_of target query].
  - unfold auth_github. destruct (env_truthy env _); reflexivity.
  - reflexivity.
  - reflexivity.
  - run_handler. destruct (truthy tok); [|reflexivity]. cbn.
    destruct (toString tok); [|reflexivity].
    destruct (up _) as [|status [v|]]; reflexivity.
  - run_handler. destruct (truthy tok); [|reflexivity]. cbn.
    destruct (toString tok); [|reflexivity].
    destruct (up _) as [|status [v|]]; reflexivity.
Qed.

(** ** Authorization *)

(** The success path of the callback: the slot takes [data.access_token]
    whatever it held. *)
Lemma callback_granted `{JsNumber} env q up tok T :
  exchange_grants env q up T →
  let o := serve env (mkRequest AuthGithubCallback q) up tok in
  response o = oauth_success ∧ holder o = T ∧ length (calls o) = 1.
Proof.
  intros (data & e & (cid & cs & status & Hid & Hcs & Hcode & Hup) & He & Hfalsy & HT).
  unfold code_of in *. run_handler.
  rewrite Hcode, Hid, Hcs. cbn -[JSON_stringify].
  unfold token_call in Hup. rewrite Hup.
  cbn -[getField]. rewrite He, Hfalsy, HT. cbn. auto.
Qed.

(** The [if (data.error)] path of the callback. *)
Lemma callback_refused `{JsNumber} env q up tok kvs e :
  exchange_answers env q up (JObj kvs) →
  own "error" kvs = Some e → truthy e = true →
  let o := serve env (mkRequest AuthGithubCallback q) up tok in
  response o
    = mkResponse 400 [] true []
        (Some (Json (JObj [("error",
                            js_or (default JUndef (own "error_description" kvs)) e)])))
  ∧ holder o = tok ∧ length (calls o) = 1.
Proof.
  intros (cid & cs & status & Hid & Hcs & Hcode & Hup) He Htruthy.
  unfold code_of in *. run_handler.
  rewrite Hcode, Hid, Hcs. cbn -[JSON_stringify].
  unfold token_call in Hup. rewrite Hup.
  cbn. rewrite He. cbn. rewrite Htruthy. cbn. auto.
Qed.

(** The [if (!code)] path of the callback. *)
Lemma callback_without_code `{JsNumber} env q up tok :
  truthy (code_of q) = false →
  serve env (mkRequest AuthGithubCallback q) up tok
    = mkServed missing_code (Normal ()) tok [] [].
Proof.
  intros Hcode. unfold code_of in *. run_handler. rewrite Hcode. reflexivity.
Qed.

(** Along requests that are no callbacks every request is served against
    the same slot value. *)
Lemma run_keeps_token `{JsNumber} env tok later (P : Request → Served → Prop) :
  Forall (λ step : Request * Upstream, target step.1 ≠ AuthGithubCallback) later →
  (∀ req up, target req ≠ AuthGithubCallback → P req (serve env req up tok)) →
  Forall2 (λ step o, P step.1 o) later (run env tok later).
Proof.
  intros Hlater HP. induction Hlater as [|[req up] rest Hreq _ IH]; cbn.
  - constructor.
  - constructor; [by apply HP|].
    by rewrite only_callback_writes.
Qed.

(** ** The claims *)

(** C1. Every tool invocation route (POST /listRepos, POST /getUser),
    served while the credential slot holds no credential (its initial
    [null], or any other falsy value), answers 401 with the body
    [{error: "GitHub OAuth required"}], issues no outbound call and
    leaves the slot as it was. *)
Theorem invocation_requires_credential {num : JsNumber}
    (env : gmap string string) (r : Route) (q : gmap string JsVal)
    (up : Upstream) (tok : JsVal) :
  r ∈ invocation_routes → truthy tok = false →
  let o := serve env (mkRequest r q) up tok in
  statusCode (response o) = 401%Z ∧
  ended (response o) = Some (Json (JObj [("error", JStr "GitHub OAuth required")])) ∧
  calls o = [] ∧
  holder o = tok.
Proof.
  intros Hr Htok o. subst o.
  rewrite invocation_without_token; [done| |done].
  apply list_elem_of_filter in Hr as [Hr _]. exact Hr.
Qed.

Lemma invocation_requires_credential_witness :
  let o := serve Sample.unconfigured (Sample.invoke ListRepos)
             Sample.unreachable Sample.null in
  statusCode (response o) = 401%Z ∧
  ended (response o) = Some (Json (JObj [("error", JStr "GitHub OAuth required")])) ∧
  calls o = [] ∧
  holder o = Sample.null.
Proof.
  apply (invocation_requires_credential (num := int_numbers)).
  - vm_compute. constructor.
  - reflexivity.
Defined.

(** C6. An invocation served with a stored credential, whose upstream call
    resolves and whose body parses as JSON, answers 200 with exactly the
    parsed upstream value as its JSON body: nothing is translated,
    filtered or paginated.  The one call issued carries the credential. *)
Theorem invocation_relays_upstream_json {num : JsNumber}
    (env : gmap string string) (r : Route) (q : gmap string JsVal)
    (up : Upstream) (tok : JsVal) (auth : string) (status : Z) (v : JsVal) :
  r ∈ invocation_routes →
  truthy tok = true → toString tok = Some auth →
  up (api_call r ("token " +:+ auth)) = FetchResolves status (Normal v) →
  serve env (mkRequest r q) up tok
    = mkServed (mkResponse 200 [] true [] (Some (Json v))) (Normal ()) tok
        [api_call r ("token " +:+ auth)] [].
Proof.
  intros Hr Htok Hauth Hup.
  apply list_elem_of_filter in Hr as [Hr _].
  destruct r; try discriminate Hr; run_handler; rewrite Htok, Hauth; cbn;
    unfold api_call, endpoint in Hup; rewrite Hup; reflexivity.
Qed.

Lemma invocation_relays_upstream_json_witness :
  serve Sample.configured (Sample.invoke ListRepos)
    (Sample.answering Sample.repos) (Sample.token "gho_a")
    = mkServed (mkResponse 200 [] true [] (Some (Json Sample.repos))) (Normal ())
        (Sample.token "gho_a") [api_call ListRepos "token gho_a"] [].
Proof.
  apply (invocation_relays_upstream_json (num := int_numbers) Sample.configured
           ListRepos Sample.no_query (Sample.answering Sample.repos)
           (Sample.token "gho_a") "gho_a" 200 Sample.repos).
  - vm_compute. constructor.
  - reflexivity.
  - reflexivity.
  - reflexivity.
Defined.

(** C7. A callback request without a [code] query parameter (or with an
    empty one) is answered 400 before anything else happens: the token
    endpoint is called zero times and the credential slot is untouched. *)
Theorem callback_missing_code_no_network {num : JsNumber}
    (env : gmap string string) (q : gmap string JsVal)
    (up : Upstream) (tok : JsVal) :
  truthy (code_of q) = false →
  let o := serve env (mkRequest AuthGithubCallback q) up tok in
  statusCode (response o) = 400%Z ∧
  ended (response o) = Some (Text "Missing OAuth code") ∧
  length (calls o) = 0 ∧
  holder o = tok.
Proof.
  intros Hcode o. subst o. by rewrite callback_without_code.
Qed.

Lemma callback_missing_code_no_network_witness :
  let o := serve Sample.configured (Sample.callback Sample.no_query)
             (Sample.answering (Sample.grant "gho_a")) Sample.null in
  statusCode (response o) = 400%Z ∧
  ended (response o) = Some (Text "Missing OAuth code") ∧
  length (calls o) = 0 ∧
  holder o = Sample.null.
Proof.
  apply (callback_missing_code_no_network (num := int_numbers)).
  reflexivity.
Defined.

(** C10. On the callback route the missing-code check comes first: with no
    [code] the answer is the 400 of the missing code whatever the
    configuration, also with client identifier and client secret both
    unset; the 500 of the configuration check is the answer exactly when
    a code is present and one of the two is unset. *)
Theorem missing_code_precedes_configuration {num : JsNumber}
    (env : gmap string string) (q : gmap string JsVal)
    (up : Upstream) (tok : JsVal) :
  let o := serve env (mkRequest AuthGithubCallback q) up tok in
  (truthy (code_of q) = false → response o = missing_code) ∧
  (response o = not_configured ↔
     truthy (code_of q) = true ∧
     (env_truthy env "GITHUB_CLIENT_ID" = None ∨
      env_truthy env "GITHUB_CLIENT_SECRET" = None)).
Proof.
  intros o. subst o. split.
  - intros Hcode. by rewrite callback_without_code.
  - destruct (truthy (code_of q)) eqn:Hcode.
    2:{ rewrite callback_without_code by done. split; [discriminate|].
        intros [? _]; discriminate. }
    unfold code_of in *. run_handler. rewrite Hcode. cbn -[JSON_stringify].
    destruct (env_truthy env "GITHUB_CLIENT_ID") as [cid|];
      destruct (env_truthy env "GITHUB_CLIENT_SECRET") as [cs|];
      cbn -[JSON_stringify]; try (split; [intros _|]; by auto).
    split; [|intros [_ [?|?]]; discriminate].
    destruct (up _) as [|status [data|]]; cbn -[getField]; try discriminate.
    destruct (getField data "error") as [e|]; cbn -[getField]; try discriminate.
    destruct (truthy e); cbn -[getField].
    + destruct (getField data "error_description"); cbn; discriminate.
    + destruct (getField data "access_token"); cbn; discriminate.
Qed.

Lemma missing_code_precedes_configuration_witness :
  response (serve Sample.unconfigured (Sample.callback Sample.no_query)
              Sample.unreachable Sample.null) = missing_code
  ∧ response (serve Sample.unconfigured (Sample.callback (Sample.with_code "c"))
              Sample.unreachable Sample.null) = not_configured.
Proof.
  split.
  - apply (missing_code_precedes_configuration (num := int_numbers)).
    reflexivity.
  - apply (missing_code_precedes_configuration (num := int_numbers)).
    split; [reflexivity | left; reflexivity].
Defined.

(** C9. The discovery response does not depend on the credential slot:
    whatever two states the server is in (no credential, or any stored
    value), GET /sse answers with the same status, the same headers and
    the same SSE frame, reads nothing from the upstream and leaves the
    slot alone. *)
Theorem discovery_ignores_credential {num : JsNumber}
    (env : gmap string string) (q1 q2 : gmap string JsVal)
    (up1 up2 : Upstream) (tok1 tok2 : JsVal) :
  let o1 := serve env (mkRequest Sse q1) up1 tok1 in
  let o2 := serve env (mkRequest Sse q2) up2 tok2 in
  response o1 = response o2 ∧
  headers (response o1) = headers (response o2) ∧
  written (response o1) = written (response o2) ∧
  calls o1 = [] ∧ calls o2 = [] ∧
  holder o1 = tok1 ∧ holder o2 = tok2.
Proof.
  cbv zeta. repeat split.
Qed.

(** C4. GET /sse and GET / answer alike: the two payloads serialise to the
    same JSON text (same message, same tool descriptors), and both
    responses carry the headers [Content-Type: text/event-stream],
    [Cache-Control: no-cache], [Connection: keep-alive] and the single
    frame [data: <JSON>] followed by two newlines. *)
Theorem discovery_entry_points_agree {num : JsNumber}
    (env : gmap string string) (q : gmap string JsVal)
    (up : Upstream) (tok : JsVal) :
  JSON_stringify sse_payload = JSON_stringify root_payload ∧
  getField sse_payload "message" = getField root_payload "message" ∧
  getField sse_payload "tools" = getField root_payload "tools" ∧
  serve env (mkRequest Sse q) up tok = serve env (mkRequest Root q) up tok ∧
  ∃ json,
    JSON_stringify root_payload = Some json ∧
    response (serve env (mkRequest Root q) up tok)
      = mkResponse 200
          [("Content-Type", "text/event-stream");
           ("Cache-Control", "no-cache");
           ("Connection", "keep-alive")]
          true
          ["data: " +:+ json +:+ newline +:+ newline]
          None.
Proof.
  repeat split. eexists. split; reflexivity.
Qed.

(** C5. The tool names advertised by the discovery payload (of either
    entry point) are [listRepos] and [getUser], and they are exactly the
    POST routes of the application: every advertised name is the path of
    an invocation route and every invocation route is the path of an
    advertised name. *)
Theorem advertised_tools_are_invocation_routes {num : JsNumber} :
  advertised sse_payload = ["listRepos"; "getUser"] ∧
  advertised root_payload = advertised sse_payload ∧
  invocation_routes = [ListRepos; GetUser] ∧
  (λ name, "/" +:+ name) <$> advertised sse_payload
    = route_path <$> invocation_routes ∧
  (∀ name, name ∈ advertised sse_payload →
     ∃ r, r ∈ invocation_routes ∧ route_path r = "/" +:+ name) ∧
  (∀ r, r ∈ invocation_routes →
     ∃ name, name ∈ advertised sse_payload ∧ route_path r = "/" +:+ name).
Proof.
  assert (Hroutes : invocation_routes = [ListRepos; GetUser]) by reflexivity.
  assert (Hnames : advertised sse_payload = ["listRepos"; "getUser"]) by reflexivity.
  rewrite Hroutes, Hnames. repeat split.
  - intros name Hname.
    apply elem_of_cons in Hname as [->|Hname];
      [exists ListRepos | apply list_elem_of_singleton in Hname as ->; exists GetUser];
      (split; [set_solver | reflexivity]).
  - intros r Hr.
    apply elem_of_cons in Hr as [->|Hr];
      [exists "listRepos" | apply list_elem_of_singleton in Hr as ->; exists "getUser"];
      (split; [set_solver | reflexivity]).
Qed.

Lemma advertised_tools_are_invocation_routes_witness :
  ∃ r, r ∈ invocation_routes ∧ route_path r = "/listRepos".
Proof.
  apply (advertised_tools_are_invocation_routes (num := int_numbers)).
  vm_compute. constructor.
Defined.

(** C2. The credential slot is single and the last writer wins: after an
    exchange granting the token [T1] and a later one granting the token
    [T2], the slot holds [T2], and every invocation served from then on
    (until another callback) issues exactly one upstream call, whose
    Authorization header is ["token " ++ T2].  A token is a non-empty
    string: the empty string counts as no credential. *)
Theorem last_exchange_wins {num : JsNumber}
    (env : gmap string string) (tok0 : JsVal)
    (q1 q2 : gmap string JsVal) (up1 up2 : Upstream) (T1 T2 : string)
    (later : list (Request * Upstream)) :
  exchange_grants env q1 up1 (JStr T1) →
  exchange_grants env q2 up2 (JStr T2) →
  T2 ≠ EmptyString →
  Forall (λ step, target step.1 ≠ AuthGithubCallback) later →
  ∃ o1 o2 os,
    run env tok0
      ((mkRequest AuthGithubCallback q1, up1)
         :: (mkRequest AuthGithubCallback q2, up2) :: later)
      = o1 :: o2 :: os ∧
    holder o1 = JStr T1 ∧
    holder o2 = JStr T2 ∧
    Forall2
      (λ step o,
         holder o = JStr T2 ∧
         (step.1.(target) ∈ invocation_routes →
          calls o = [api_call step.1.(target) ("token " +:+ T2)]))
      later os.
Proof.
  intros H1 H2 HT2 Hlater.
  eexists _, _, _. split; [reflexivity|].
  destruct (callback_granted env q1 up1 tok0 _ H1) as (_ & -> & _).
  destruct (callback_granted env q2 up2 (JStr T1) _ H2) as (_ & -> & _).
  split; [done|]. split; [done|].
  apply (run_keeps_token env (JStr T2) later
           (λ req o, holder o = JStr T2 ∧
                     (target req ∈ invocation_routes →
                      calls o = [api_call (target req) ("token " +:+ T2)])));
    [done|].
  intros [r q] up Hr. split; [by apply only_callback_writes|].
  cbn [target]. intros Hpost. apply list_elem_of_filter in Hpost as [Hpost _].
  apply (invocation_with_token env r q up (JStr T2) T2); [done| |done].
  by destruct T2.
Qed.

Lemma last_exchange_wins_witness :
  ∃ o1 o2 os,
    run Sample.configured Sample.null
      [(Sample.callback (Sample.with_code "c1"), Sample.answering (Sample.grant "gho_a"));
       (Sample.callback (Sample.with_code "c2"), Sample.answering (Sample.grant "gho_b"));
       (Sample.invoke ListRepos, Sample.answering Sample.repos);
       (Sample.invoke GetUser, Sample.unreachable)]
      = o1 :: o2 :: os ∧
    holder o1 = JStr "gho_a" ∧
    holder o2 = JStr "gho_b" ∧
    Forall2
      (λ step o,
         holder o = JStr "gho_b" ∧
         (step.1.(target) ∈ invocation_routes →
          calls o = [api_call step.1.(target) "token gho_b"]))
      [(Sample.invoke ListRepos, Sample.answering Sample.repos);
       (Sample.invoke GetUser, Sample.unreachable)]
      os.
Proof.
  apply (last_exchange_wins (num := int_numbers) Sample.configured Sample.null
           (Sample.with_code "c1") (Sample.with_code "c2")
           (Sample.answering (Sample.grant "gho_a"))
           (Sample.answering (Sample.grant "gho_b")) "gho_a" "gho_b").
  - exists (Sample.grant "gho_a"), JUndef. repeat split.
    exists "id", "secret", 200%Z. repeat split.
  - exists (Sample.grant "gho_b"), JUndef. repeat split.
    exists "id", "secret", 200%Z. repeat split.
  - discriminate.
  - repeat constructor; discriminate.
Defined.

(** C8. When the token endpoint answers with a JSON object that has
    neither an [error] nor an [access_token] member, the callback still
    answers 200 with the success message and stores [undefined] in the
    credential slot, whatever the slot held; every invocation served from
    then on (until another callback) answers 401 and calls nothing. *)
Theorem exchange_without_token_revokes {num : JsNumber}
    (env : gmap string string) (tok : JsVal)
    (q : gmap string JsVal) (up : Upstream) (kvs : list (string * JsVal))
    (later : list (Request * Upstream)) :
  exchange_answers env q up (JObj kvs) →
  own "error" kvs = None →
  own "access_token" kvs = None →
  Forall (λ step, target step.1 ≠ AuthGithubCallback) later →
  ∃ o os,
    run env tok ((mkRequest AuthGithubCallback q, up) :: later) = o :: os ∧
    response o = oauth_success ∧
    holder o = JUndef ∧
    Forall2
      (λ step o',
         step.1.(target) ∈ invocation_routes →
         response o' = unauthenticated ∧ calls o' = [])
      later os.
Proof.
  intros Hup Herr Htok Hlater.
  eexists _, _. split; [reflexivity|].
  assert (Hgrants : exchange_grants env q up JUndef).
  { exists (JObj kvs), JUndef. cbn. by rewrite Herr, Htok. }
  destruct (callback_granted env q up tok _ Hgrants) as (-> & -> & _).
  split; [done|]. split; [done|].
  apply (run_keeps_token env JUndef later
           (λ req o', target req ∈ invocation_routes →
                      response o' = unauthenticated ∧ calls o' = [])); [done|].
  intros [r q'] up' _. cbn [target]. intros Hpost.
  apply list_elem_of_filter in Hpost as [Hpost _].
  by rewrite invocation_without_token.
Qed.

Lemma exchange_without_token_revokes_witness :
  ∃ o os,
    run Sample.configured (Sample.token "gho_a")
      [(Sample.callback (Sample.with_code "c"), Sample.answering Sample.no_token);
       (Sample.invoke ListRepos, Sample.answering Sample.repos);
       (Sample.invoke GetUser, Sample.answering Sample.repos)]
      = o :: os ∧
    response o = oauth_success ∧
    holder o = JUndef ∧
    Forall2
      (λ step o',
         step.1.(target) ∈ invocation_routes →
         response o' = unauthenticated ∧ calls o' = [])
      [(Sample.invoke ListRepos, Sample.answering Sample.repos);
       (Sample.invoke GetUser, Sample.answering Sample.repos)]
      os.
Proof.
  apply (exchange_without_token_revokes (num := int_numbers) Sample.configured
           (Sample.token "gho_a") (Sample.with_code "c")
           (Sample.answering Sample.no_token) [("token_type", JStr "bearer")]).
  - exists "id", "secret", 200%Z. repeat split.
  - reflexivity.
  - reflexivity.
  - repeat constructor; discriminate.
Defined.

(** C3, as stated, fails on an answer whose [error] member is present but
    falsy.  With an answer whose [error] member is the empty string and
    whose [access_token] member is [gho_b], the guard [if (data.error)]
    does not fire: the callback answers 200 with the success message and
    replaces the stored credential. *)
Lemma blank_error_field_counterexample :
  let o := serve Sample.configured (Sample.callback (Sample.with_code "c"))
             (Sample.answering Sample.blank_error) (Sample.token "gho_a") in
  exchange_answers Sample.configured (Sample.with_code "c")
    (Sample.answering Sample.blank_error) Sample.blank_error ∧
  (∃ kvs, Sample.blank_error = JObj kvs ∧ is_Some (own "error" kvs)) ∧
  statusCode (response o) = 200%Z ∧
  holder o = Sample.token "gho_b" ∧
  ¬ (statusCode (response o) = 400%Z ∧ holder o = Sample.token "gho_a").
Proof.
  cbv zeta. split; [|split; [|split; [|split]]].
  - exists "id", "secret", 200%Z. repeat split.
  - eexists. split; [reflexivity|]. by eexists.
  - reflexivity.
  - reflexivity.
  - intros [Hstatus _]. vm_compute in Hstatus. discriminate Hstatus.
Qed.

(** C3, amended.  When the token endpoint answers with a JSON object whose
    [error] member is truthy (a non-empty error code, in particular), the
    callback answers 400 with the body [{error: d}], where [d] is the
    [error_description] member if that is truthy and the [error] member
    otherwise, and the credential slot keeps the value it had. *)
Theorem upstream_error_rejects_exchange {num : JsNumber}
    (env : gmap string string) (tok : JsVal)
    (q : gmap string JsVal) (up : Upstream)
    (kvs : list (string * JsVal)) (e : JsVal) :
  exchange_answers env q up (JObj kvs) →
  own "error" kvs = Some e →
  truthy e = true →
  let o := serve env (mkRequest AuthGithubCallback q) up tok in
  let description := default JUndef (own "error_description" kvs) in
  statusCode (response o) = 400%Z ∧
  ended (response o)
    = Some (Json (JObj [("error", if truthy description then description else e)])) ∧
  holder o = tok.
Proof.
  intros Hup He Htruthy o description. subst o description.
  destruct (callback_refused env q up tok kvs e Hup He Htruthy) as (-> & -> & _).
  done.
Qed.

Lemma upstream_error_rejects_exchange_witness :
  let o := serve Sample.configured (Sample.callback (Sample.with_code "c"))
             (Sample.answering Sample.access_denied) (Sample.token "gho_a") in
  statusCode (response o) = 400%Z ∧
  ended (response o) = Some (Json (JObj [("error", JStr "access_denied")])) ∧
  holder o = Sample.token "gho_a".
Proof.
  apply (upstream_error_rejects_exchange (num := int_numbers) Sample.configured
           (Sample.token "gho_a") (Sample.with_code "c")
           (Sample.answering Sample.access_denied)
           [("error", JStr "access_denied")] (JStr "access_denied")).
  - exists "id", "secret", 200%Z. repeat split.
  - reflexivity.
  - reflexivity.
Defined.

(** ** Worked examples *)

(** GET /auth/github on a configured process redirects to the
    authorization page, the parameters form-urlencoded. *)
Example authorize_redirect :
  let o := serve Sample.configured (Sample.invoke AuthGithub)
             Sample.unreachable Sample.null in
  statusCode (response o) = 302%Z ∧
  headers (response o)
    = [("Location",
        "https://github.com/login/oauth/authorize?client_id=id&redirect_uri=http%3A%2F%2Flocalhost%3A10000%2Fauth%2Fgithub%2Fcallback&scope=repo+read%3Auser&allow_signup=true")].
Proof. split; reflexivity. Qed.

(** A credential that is not a string is printed by the template literal;
    an object that cannot be printed makes the handler answer 500 without
    calling the upstream. *)
Example array_token_header :
  calls (serve Sample.configured (Sample.invoke GetUser) Sample.unreachable
           (JArr [JStr "a"; JNull; JBool true]))
    = [api_call GetUser "token a,,true"].
Proof. reflexivity. Qed.

Example unprintable_token :
  let o := serve Sample.configured (Sample.invoke GetUser)
             (Sample.answering Sample.repos) (JObj [("toString", JNull)]) in
  statusCode (response o) = 500%Z ∧ calls o = [].
Proof. split; reflexivity. Qed.

(** A [null] answer of the token endpoint makes [data.error] throw: the
    callback answers 500 and the slot keeps its value. *)
Example null_answer :
  let o := serve Sample.configured (Sample.callback (Sample.with_code "c"))
             (Sample.answering JNull) (Sample.token "gho_a") in
  statusCode (response o) = 500%Z ∧
  ended (response o) = Some (Text "Failed to retrieve access token") ∧
  holder o = Sample.token "gho_a".
Proof. repeat split. Qed.

Example stringify_array :
  JSON_stringify (JArr [JNum (1%Z : @number int_numbers); JUndef; JBool true;
                        JObj [("a", JUndef); ("b", JStr "c")]])
    = Some ("[1,null,true,{" +:+ dquote +:+ "b" +:+ dquote +:+ ":"
            +:+ dquote +:+ "c" +:+ dquote +:+ "}]").
Proof. reflexivity. Qed.

(** ** Further properties: strings *)

Lemma append_nil_l (t : string) : EmptyString +:+ t = t.
Proof. reflexivity. Qed.

Lemma append_cons (c : ascii) (s t : string) :
  String c s +:+ t = String c (s +:+ t).
Proof. reflexivity. Qed.

Lemma append_assoc (s t u : string) : (s +:+ t) +:+ u = s +:+ (t +:+ u).
Proof.
  induction s as [|c s IH]; [reflexivity|].
  by rewrite !append_cons, IH.
Qed.

Lemma count_char_app (c : ascii) (s t : string) :
  count_char c (s +:+ t) = count_char c s + count_char c t.
Proof.
  induction s as [|c' s IH]; [reflexivity|].
  rewrite append_cons. cbn [count_char]. rewrite IH. lia.
Qed.

Lemma string_forall_app (P : ascii → bool) (s t : string) :
  string_forall P (s +:+ t) = string_forall P s && string_forall P t.
Proof.
  induction s as [|c' s IH]; [reflexivity|].
  rewrite append_cons. cbn [string_forall]. rewrite IH. by rewrite andb_assoc.
Qed.

Lemma count_char_excluded (P : ascii → bool) (c : ascii) (s : string) :
  P c = false → string_forall P s = true → count_char c s = 0.
Proof.
  intros Hc. induction s as [|c' s IH]; [reflexivity|].
  cbn [string_forall count_char]. intros [Hc' Hs]%andb_prop.
  rewrite (IH Hs). case_decide; [congruence | reflexivity].
Qed.

(** Each byte is encoded into safe characters, and read back. *)
Lemma form_byte_safe (c : ascii) : string_forall form_safe (form_byte c) = true.
Proof. destruct c as [[] [] [] [] [] [] [] []]; reflexivity. Qed.

Lemma form_byte_decode (c : ascii) (rest : string) :
  form_decode (form_byte c +:+ rest) = String c (form_decode rest).
Proof. destruct c as [[] [] [] [] [] [] [] []]; reflexivity. Qed.

Lemma form_encode_safe (s : string) : string_forall form_safe (form_encode s) = true.
Proof.
  induction s as [|c s IH]; [reflexivity|].
  cbn [form_encode]. by rewrite string_forall_app, form_byte_safe, IH.
Qed.

Lemma form_decode_encode (s : string) : form_decode (form_encode s) = s.
Proof.
  induction s as [|c s IH]; [reflexivity|].
  cbn [form_encode]. by rewrite form_byte_decode, IH.
Qed.

(** ** Further properties: starting the authorization *)

Lemma auth_github_served `{JsNumber} env q up tok :
  serve env (mkRequest AuthGithub q) up tok
    = match env_truthy env "GITHUB_CLIENT_ID" with
      | None =>
          mkServed
            (mkResponse 500 [] true [] (Some (Text "GitHub client ID not configured")))
            (Normal ()) tok [] []
      | Some clientId =>
          mkServed
            (mkResponse 302
               [("Location",
                 "https://github.com/login/oauth/authorize?" +:+
                 URLSearchParams_toString
                   [("client_id", clientId);
                    ("redirect_uri", BASE_URL env +:+ "/auth/github/callback");
                    ("scope", "repo read:user");
                    ("allow_signup", "true")])]
               true [] (Some RedirectNotice))
            (Normal ()) tok [] []
      end.
Proof.
  cbv [serve handler_of target auth_github].
  destruct (env_truthy env "GITHUB_CLIENT_ID"); reflexivity.
Qed.

Lemma env_truthy_None env k :
  env_truthy env k = None ↔ env !! k = None ∨ env !! k = Some EmptyString.
Proof.
  unfold env_truthy. destruct (env !! k) as [[|c s]|].
  - split; [by right | done].
  - split; [done | intros [?|?]; discriminate].
  - split; [by left | done].
Qed.

Lemma join_prefix (sep p x : string) (rest : list string) :
  foldl (λ acc y, acc +:+ sep +:+ y) (p +:+ x) rest
    = p +:+ foldl (λ acc y, acc +:+ sep +:+ y) x rest.
Proof.
  revert x. induction rest as [|y rest IH]; intros x; [reflexivity|].
  cbn [foldl]. by rewrite append_assoc, IH.
Qed.

Lemma join_cons (sep x y : string) (rest : list string) :
  join sep (x :: y :: rest) = x +:+ sep +:+ join sep (y :: rest).
Proof.
  cbn [join foldl]. by rewrite join_prefix, join_prefix.
Qed.

(** The serialised parameters are safe characters and the separators put
    between them: one [=] per parameter, one [&] between two. *)
Lemma URLSearchParams_separators (params : list (string * string)) :
  count_char "=" (URLSearchParams_toString params) = length params ∧
  count_char "&" (URLSearchParams_toString params) = length params - 1.
Proof.
  unfold URLSearchParams_toString.
  set (f := λ p : string * string, form_encode p.1 +:+ "=" +:+ form_encode p.2).
  assert (Hpair : ∀ p, count_char "=" (f p) = 1 ∧ count_char "&" (f p) = 0).
  { intros p. unfold f. rewrite !count_char_app.
    rewrite !(count_char_excluded form_safe "=" (form_encode _))
      by (done || apply form_encode_safe).
    rewrite !(count_char_excluded form_safe "&" (form_encode _))
      by (done || apply form_encode_safe).
    done. }
  assert (Heq : count_char "=" "&" = 0) by reflexivity.
  assert (Hamp : count_char "&" "&" = 1) by reflexivity.
  induction params as [|p [|p' rest] IH].
  - done.
  - cbn [map join foldl length]. destruct (Hpair p) as [-> ->]. done.
  - cbn [map] in *. rewrite join_cons, !count_char_app, Heq, Hamp.
    destruct IH as [-> ->]. destruct (Hpair p) as [-> ->].
    cbn [length]. lia.
Qed.

(** X1. GET /auth/github on a process whose client identifier is unset or
    empty answers 500 with the text "GitHub client ID not configured":
    there is no redirect, no outbound call, and the credential slot is
    left alone. *)
Theorem authorization_needs_client_id {num : JsNumber}
    (env : gmap string string) (q : gmap string JsVal)
    (up : Upstream) (tok : JsVal) :
  env !! "GITHUB_CLIENT_ID" = None ∨ env !! "GITHUB_CLIENT_ID" = Some EmptyString →
  let o := serve env (mkRequest AuthGithub q) up tok in
  statusCode (response o) = 500%Z ∧
  ended (response o) = Some (Text "GitHub client ID not configured") ∧
  header "Location" (headers (response o)) = None ∧
  calls o = [] ∧
  holder o = tok.
Proof.
  intros Hid%env_truthy_None o. subst o.
  by rewrite auth_github_served, Hid.
Qed.

Lemma authorization_needs_client_id_witness :
  let o := serve Sample.unconfigured (Sample.invoke AuthGithub)
             Sample.unreachable Sample.null in
  statusCode (response o) = 500%Z ∧
  ended (response o) = Some (Text "GitHub client ID not configured") ∧
  header "Location" (headers (response o)) = None ∧
  calls o = [] ∧
  holder o = Sample.null.
Proof.
  apply (authorization_needs_client_id (num := int_numbers)).
  left. reflexivity.
Defined.

(** X2. GET /auth/github on a configured process answers 302, and the
    Location header is the authorization page with four parameters in
    this order: the form-encoded client identifier, the form-encoded
    callback address under BASE_URL, the scopes [repo read:user] and
    [allow_signup=true].  Nothing is called and the slot is left alone. *)
Theorem authorization_redirect_target {num : JsNumber}
    (env : gmap string string) (q : gmap string JsVal)
    (up : Upstream) (tok : JsVal) (clientId : string) :
  env_truthy env "GITHUB_CLIENT_ID" = Some clientId →
  let o := serve env (mkRequest AuthGithub q) up tok in
  statusCode (response o) = 302%Z ∧
  header "Location" (headers (response o))
    = Some ("https://github.com/login/oauth/authorize?client_id="
            +:+ form_encode clientId
            +:+ "&redirect_uri="
            +:+ form_encode (BASE_URL env +:+ "/auth/github/callback")
            +:+ "&scope=repo+read%3Auser&allow_signup=true") ∧
  calls o = [] ∧
  holder o = tok.
Proof.
  intros Hid o. subst o. rewrite auth_github_served, Hid.
  cbn [response statusCode headers header calls holder].
  rewrite decide_True by done. repeat split. f_equal.
  unfold URLSearchParams_toString. cbn [map fst snd].
  rewrite !join_cons. cbn [join].
  change (form_encode "client_id") with "client_id".
  change (form_encode "redirect_uri") with "redirect_uri".
  change (form_encode "scope" +:+ "=" +:+ form_encode "repo read:user" +:+ "&"
          +:+ form_encode "allow_signup" +:+ "=" +:+ form_encode "true")
    with "scope=repo+read%3Auser&allow_signup=true".
  rewrite !append_assoc. reflexivity.
Qed.

Lemma authorization_redirect_target_witness :
  let o := serve Sample.configured (Sample.invoke AuthGithub)
             Sample.unreachable (Sample.token "gho_a") in
  statusCode (response o) = 302%Z ∧
  header "Location" (headers (response o))
    = Some ("https://github.com/login/oauth/authorize?client_id="
            +:+ form_encode "id"
            +:+ "&redirect_uri="
            +:+ form_encode (BASE_URL Sample.configured +:+ "/auth/github/callback")
            +:+ "&scope=repo+read%3Auser&allow_signup=true") ∧
  calls o = [] ∧
  holder o = Sample.token "gho_a".
Proof.
  apply (authorization_redirect_target (num := int_numbers)).
  reflexivity.
Defined.

(** X3. Whatever characters the client identifier and the base address
    hold, the query of the redirect has exactly four parameters: it
    contains four [=] and three [&], the ones the serialiser puts. *)
Theorem authorization_redirect_parameters {num : JsNumber}
    (env : gmap string string) (q : gmap string JsVal)
    (up : Upstream) (tok : JsVal) (clientId : string) :
  env_truthy env "GITHUB_CLIENT_ID" = Some clientId →
  ∃ query,
    header "Location" (headers (response (serve env (mkRequest AuthGithub q) up tok)))
      = Some ("https://github.com/login/oauth/authorize?" +:+ query) ∧
    count_char "=" query = 4 ∧
    count_char "&" query = 3.
Proof.
  intros Hid. rewrite auth_github_served, Hid.
  cbn [response headers header]. rewrite decide_True by done.
  eexists. split; [reflexivity|].
  apply (URLSearchParams_separators [_; _; _; _]).
Qed.

Lemma authorization_redirect_parameters_witness :
  ∃ query,
    header "Location"
      (headers (response (serve {[ "GITHUB_CLIENT_ID" := "a&b=c d" ]}
                            (Sample.invoke AuthGithub) Sample.unreachable Sample.null)))
      = Some ("https://github.com/login/oauth/authorize?" +:+ query) ∧
    count_char "=" query = 4 ∧
    count_char "&" query = 3.
Proof.
  apply (authorization_redirect_parameters (num := int_numbers)
           {[ "GITHUB_CLIENT_ID" := "a&b=c d" ]} Sample.no_query
           Sample.unreachable Sample.null "a&b=c d").
  reflexivity.
Defined.

(** X4. The form encoding of the redirect parameters loses nothing: the
    receiving side reads back the text that was encoded, so two different
    texts never encode alike. *)
Theorem form_encode_lossless (s t : string) :
  form_decode (form_encode s) = s ∧
  (form_encode s = form_encode t → s = t).
Proof.
  split; [apply form_decode_encode|].
  intros Heq. by rewrite <- (form_decode_encode s), Heq, form_decode_encode.
Qed.

Lemma form_encode_lossless_witness :
  form_decode (form_encode "a b&c=d/e") = "a b&c=d/e" ∧
  form_encode "a b" ≠ form_encode "a+b".
Proof.
  split.
  - apply (form_encode_lossless "a b&c=d/e" EmptyString).
  - intros Heq. apply (form_encode_lossless "a b" "a+b") in Heq. discriminate Heq.
Defined.

(** ** Further properties: every request *)

(** Splits a served request into the paths its handler can take. *)
Ltac serve_paths :=
  run_handler; cbv [auth_github];
  repeat first
    [ progress cbn -[JSON_stringify getField toString truthy env_truthy URLSearchParams_toString]
    | match goal with
      | |- context [env_truthy ?e ?k] => destruct (env_truthy e k) eqn:?
      | |- context [truthy ?v] => destruct (truthy v) eqn:?
      | |- context [toString ?v] => destruct (toString v) eqn:?
      | |- context [match ?up ?c with FetchRejects => _ | FetchResolves _ _ => _ end] =>
          destruct (up c) as [|? [?|]] eqn:?
      | |- context [getField ?d ?k] => destruct (getField d k) eqn:?
      end ].

(** X9. No request makes a handler fail: every handler returns normally
    with the response started.  The discovery routes write one frame and
    leave the stream open; every other route ends its response with a
    body and writes no chunk. *)
Theorem every_request_is_answered {num : JsNumber}
    (env : gmap string string) (req : Request) (up : Upstream) (tok : JsVal) :
  let o := serve env req up tok in
  completion o = Normal () ∧
  headersSent (response o) = true ∧
  if is_discovery (target req)
  then ended (response o) = None ∧ length (written (response o)) = 1
  else is_Some (ended (response o)) ∧ written (response o) = [].
Proof.
  destruct req as [[] q]; serve_paths; by eauto.
Qed.

(** X10. The status of a response is one of those of its route: 302 or
    500 for GET /auth/github; 200, 400 or 500 for the callback; 200 for
    the discovery routes; 200, 401 or 500 for the invocation routes. *)
Theorem status_codes_by_route {num : JsNumber}
    (env : gmap string string) (req : Request) (up : Upstream) (tok : JsVal) :
  let status := statusCode (response (serve env req up tok)) in
  match target req with
  | AuthGithub => status = 302 ∨ status = 500
  | AuthGithubCallback => status = 200 ∨ status = 400 ∨ status = 500
  | Sse | Root => status = 200
  | ListRepos | GetUser => status = 200 ∨ status = 401 ∨ status = 500
  end%Z.
Proof.
  destruct req as [[] q]; serve_paths; by eauto.
Qed.

(** After any request the slot is as it was, unless the request was a
    callback that answered with the success message. *)
Lemma serve_slot `{JsNumber} env req up tok :
  holder (serve env req up tok) = tok ∨
  (target req = AuthGithubCallback ∧ response (serve env req up tok) = oauth_success).
Proof.
  destruct req as [[] q]; serve_paths; by eauto.
Qed.

(** X6. The credential slot changes only together with the success
    answer of the callback: a request after which the slot differs from
    what it was is a callback that answered 200 with the success
    message. *)
Theorem slot_changes_only_on_success {num : JsNumber}
    (env : gmap string string) (req : Request) (up : Upstream) (tok : JsVal) :
  let o := serve env req up tok in
  holder o ≠ tok →
  target req = AuthGithubCallback ∧ response o = oauth_success.
Proof.
  intros o Hchanged. subst o.
  by destruct (serve_slot env req up tok) as [?|?].
Qed.

Lemma slot_changes_only_on_success_witness :
  let o := serve Sample.configured (Sample.callback (Sample.with_code "c"))
             (Sample.answering (Sample.grant "gho_b")) (Sample.token "gho_a") in
  target (Sample.callback (Sample.with_code "c")) = AuthGithubCallback ∧
  response o = oauth_success.
Proof.
  apply (slot_changes_only_on_success (num := int_numbers) Sample.configured
           (Sample.callback (Sample.with_code "c"))
           (Sample.answering (Sample.grant "gho_b")) (Sample.token "gho_a")).
  vm_compute. discriminate.
Defined.

(** The one call a request can issue, read off the configuration, the
    code and the slot. *)
Lemma serve_calls `{JsNumber} env req up tok :
  calls (serve env req up tok)
    = match target req with
      | AuthGithubCallback =>
          match env_truthy env "GITHUB_CLIENT_ID",
                env_truthy env "GITHUB_CLIENT_SECRET" with
          | Some clientId, Some clientSecret =>
              if truthy (code_of (query req))
              then [token_call clientId clientSecret (code_of (query req))]
              else []
          | _, _ => []
          end
      | ListRepos | GetUser =>
          if truthy tok then
            match toString tok with
            | Some auth => [api_call (target req) ("token " +:+ auth)]
            | None => []
            end
          else []
      | AuthGithub | Sse | Root => []
      end.
Proof.
  destruct req as [[] q]; unfold code_of; cbn [target query]; serve_paths;
    reflexivity.
Qed.

(** X7. A request never issues more than one outbound call, and which
    call it issues does not depend on what the upstream answers: nothing
    is retried.  GET /auth/github and the discovery routes call nothing. *)
Theorem at_most_one_call_no_retry {num : JsNumber}
    (env : gmap string string) (req : Request) (up up' : Upstream) (tok : JsVal) :
  (length (calls (serve env req up tok)) ≤ 1)%nat ∧
  calls (serve env req up tok) = calls (serve env req up' tok) ∧
  match target req with
  | AuthGithub | Sse | Root => calls (serve env req up tok) = []
  | AuthGithubCallback | ListRepos | GetUser => True
  end.
Proof.
  rewrite !serve_calls. split; [|split; [done|]].
  - repeat case_match; cbn; lia.
  - by destruct req as [[] q].
Qed.

(** X8. Where calls go.  A call issued by a request is either the POST of
    the callback to the token endpoint, which carries the client secret
    in its body and no Authorization header, or the GET of an invocation
    route to its API endpoint, which carries the stored credential in its
    Authorization header and no body. *)
Theorem outbound_calls_by_route {num : JsNumber}
    (env : gmap string string) (req : Request) (up : Upstream) (tok : JsVal)
    (call : OutReq) :
  call ∈ calls (serve env req up tok) →
  (target req = AuthGithubCallback ∧
   (∃ clientId clientSecret,
      exchange_attempted env (query req) clientId clientSecret ∧
      call = token_call clientId clientSecret (code_of (query req))) ∧
   url call = "https://github.com/login/oauth/access_token" ∧
   header "Authorization" (req_headers call) = None)
  ∨
  (target req ∈ invocation_routes ∧
   (∃ auth, truthy tok = true ∧ toString tok = Some auth ∧
            call = api_call (target req) ("token " +:+ auth)) ∧
   url call = endpoint (target req) ∧
   req_body call = None).
Proof.
  rewrite serve_calls. unfold exchange_attempted.
  destruct req as [[] q]; cbn [target query]; repeat case_match;
    intros Hcall; try (by apply elem_of_nil in Hcall);
    apply list_elem_of_singleton in Hcall as ->.
  - left. split; [done|]. split; [by eauto 10|]. done.
  - right. split; [vm_compute; repeat constructor|]. split; [by eauto|]. done.
  - right. split; [vm_compute; repeat constructor|]. split; [by eauto|]. done.
Qed.

Lemma outbound_calls_by_route_witness :
  (target (Sample.invoke GetUser) = AuthGithubCallback ∧
   (∃ clientId clientSecret,
      exchange_attempted Sample.configured (query (Sample.invoke GetUser))
        clientId clientSecret ∧
      api_call GetUser "token gho_a"
        = token_call clientId clientSecret (code_of (query (Sample.invoke GetUser)))) ∧
   url (api_call GetUser "token gho_a") = "https://github.com/login/oauth/access_token" ∧
   header "Authorization" (req_headers (api_call GetUser "token gho_a")) = None)
  ∨
  (target (Sample.invoke GetUser) ∈ invocation_routes ∧
   (∃ auth, truthy (Sample.token "gho_a") = true ∧
            toString (Sample.token "gho_a") = Some auth ∧
            api_call GetUser "token gho_a"
              = api_call (target (Sample.invoke GetUser)) ("token " +:+ auth)) ∧
   url (api_call GetUser "token gho_a") = endpoint (target (Sample.invoke GetUser)) ∧
   req_body (api_call GetUser "token gho_a") = None).
Proof.
  apply (outbound_calls_by_route (num := int_numbers) Sample.configured
           (Sample.invoke GetUser) Sample.unreachable (Sample.token "gho_a")).
  vm_compute. constructor.
Defined.

(** ** Further properties: failures of the upstream *)

(** X5. When the exchange itself fails (the call to the token endpoint is
    rejected, its body is not JSON, or the body is the JSON [null]), the
    callback answers 500 with the text "Failed to retrieve access token"
    after its single call, logs the failure, and leaves the credential
    slot as it was. *)
Theorem exchange_failure_keeps_slot {num : JsNumber}
    (env : gmap string string) (q : gmap string JsVal)
    (up : Upstream) (tok : JsVal) (clientId clientSecret : string) :
  exchange_attempted env q clientId clientSecret →
  upstream_fails up (token_call clientId clientSecret (code_of q)) ∨
  (∃ status, up (token_call clientId clientSecret (code_of q))
               = FetchResolves status (Normal JNull)) →
  serve env (mkRequest AuthGithubCallback q) up tok
    = mkServed exchange_failed (Normal ()) tok
        [token_call clientId clientSecret (code_of q)]
        ["Error exchanging GitHub code for token"].
Proof.
  intros (Hid & Hcs & Hcode) Hup. unfold code_of, token_call in *.
  run_handler. rewrite Hcode, Hid, Hcs. cbn -[JSON_stringify].
  destruct Hup as [[Hup|[status Hup]]|[status Hup]]; rewrite Hup; reflexivity.
Qed.

Lemma exchange_failure_keeps_slot_witness :
  serve Sample.configured (Sample.callback (Sample.with_code "c"))
    Sample.unreachable (Sample.token "gho_a")
    = mkServed exchange_failed (Normal ()) (Sample.token "gho_a")
        [token_call "id" "secret" (code_of (Sample.with_code "c"))]
        ["Error exchanging GitHub code for token"].
Proof.
  apply (exchange_failure_keeps_slot (num := int_numbers) Sample.configured
           (Sample.with_code "c") Sample.unreachable (Sample.token "gho_a")
           "id" "secret").
  - repeat split.
  - left. left. reflexivity.
Defined.

(** X11. When the upstream call of an invocation fails (the call is
    rejected or its body is not JSON), the route answers 500 with its own
    fixed error body, whatever the failure was; the call was issued once
    and the credential slot is as it was. *)
Theorem invocation_failure_is_generic {num : JsNumber}
    (env : gmap string string) (r : Route) (q : gmap string JsVal)
    (up : Upstream) (tok : JsVal) (auth : string) :
  r ∈ invocation_routes →
  truthy tok = true → toString tok = Some auth →
  upstream_fails up (api_call r ("token " +:+ auth)) →
  let o := serve env (mkRequest r q) up tok in
  response o = fetch_failed r ∧
  calls o = [api_call r ("token " +:+ auth)] ∧
  holder o = tok ∧
  length (logs o) = 1.
Proof.
  intros Hr Htok Hauth Hup.
  apply list_elem_of_filter in Hr as [Hr _].
  destruct r; try discriminate Hr; run_handler; rewrite Htok, Hauth; cbn;
    unfold api_call, endpoint in Hup;
    destruct Hup as [Hup|[status Hup]]; rewrite Hup; done.
Qed.

Lemma invocation_failure_is_generic_witness :
  let o := serve Sample.configured (Sample.invoke ListRepos)
             Sample.unreachable (Sample.token "gho_a") in
  response o = fetch_failed ListRepos ∧
  calls o = [api_call ListRepos "token gho_a"] ∧
  holder o = Sample.token "gho_a" ∧
  length (logs o) = 1.
Proof.
  apply (invocation_failure_is_generic (num := int_numbers) Sample.configured
           ListRepos Sample.no_query Sample.unreachable (Sample.token "gho_a")
           "gho_a").
  - vm_compute. constructor.
  - reflexivity.
  - reflexivity.
  - left. reflexivity.
Defined.

(** ** Further properties: sequences of requests *)

(** As long as no request is answered with the success message of the
    callback, every request is served against the same slot value. *)
Lemma run_without_success `{JsNumber} env tok trace :
  Forall (λ o, response o ≠ oauth_success) (run env tok trace) →
  Forall2 (λ step o, o = serve env step.1 step.2 tok ∧ holder o = tok)
    trace (run env tok trace).
Proof.
  revert tok. induction trace as [|[req up] rest IH]; intros tok; cbn [run];
    [constructor|].
  intros [Hhead Hrest]%Forall_cons.
  destruct (serve_slot env req up tok) as [Hkept|[_ Hsuccess]]; [|done].
  constructor; [done|].
  rewrite Hkept in *. by apply IH.
Qed.

(** X12. Until an exchange succeeds, nothing is invoked: on a process
    whose slot holds no credential (as at start), along any sequence of
    requests none of which is answered with the success message of the
    callback (failed, refused or incomplete exchanges included), every
    invocation is answered 401 without an outbound call, and the slot
    stays as it was. *)
Theorem refused_until_exchange_succeeds {num : JsNumber}
    (env : gmap string string) (tok : JsVal)
    (trace : list (Request * Upstream)) :
  truthy tok = false →
  Forall (λ o, response o ≠ oauth_success) (run env tok trace) →
  Forall2
    (λ step o,
       holder o = tok ∧
       (step.1.(target) ∈ invocation_routes →
        response o = unauthenticated ∧ calls o = []))
    trace (run env tok trace).
Proof.
  intros Htok Hnone.
  eapply Forall2_impl; [by apply run_without_success|].
  intros [[r q] up] o [-> Hkept]. cbn [fst snd target] in *. split; [done|].
  intros [Hpost _]%list_elem_of_filter. by rewrite invocation_without_token.
Qed.

Lemma refused_until_exchange_succeeds_witness :
  Forall2
    (λ step o,
       holder o = Sample.null ∧
       (step.1.(target) ∈ invocation_routes →
        response o = unauthenticated ∧ calls o = []))
    [(Sample.callback (Sample.with_code "c"), Sample.answering Sample.access_denied);
     (Sample.invoke ListRepos, Sample.answering Sample.repos);
     (Sample.callback Sample.no_query, Sample.answering (Sample.grant "gho_a"));
     (Sample.callback (Sample.with_code "c"), Sample.unreachable);
     (Sample.invoke GetUser, Sample.answering Sample.repos)]
    (run Sample.configured Sample.null
       [(Sample.callback (Sample.with_code "c"), Sample.answering Sample.access_denied);
        (Sample.invoke ListRepos, Sample.answering Sample.repos);
        (Sample.callback Sample.no_query, Sample.answering (Sample.grant "gho_a"));
        (Sample.callback (Sample.with_code "c"), Sample.unreachable);
        (Sample.invoke GetUser, Sample.answering Sample.repos)]).
Proof.
  apply (refused_until_exchange_succeeds (num := int_numbers)).
  - reflexivity.
  - vm_compute. repeat constructor; discriminate.
Defined.

(** X13. A failed exchange does not log the user out: on a process that
    holds the token [T], along any sequence of requests none of which is
    answered with the success message of the callback, the slot keeps
    [T] and every invocation issues its one call with the Authorization
    header ["token " ++ T]. *)
Theorem failed_exchange_keeps_credential {num : JsNumber}
    (env : gmap string string) (T : string)
    (trace : list (Request * Upstream)) :
  T ≠ EmptyString →
  Forall (λ o, response o ≠ oauth_success) (run env (JStr T) trace) →
  Forall2
    (λ step o,
       holder o = JStr T ∧
       (step.1.(target) ∈ invocation_routes →
        calls o = [api_call step.1.(target) ("token " +:+ T)]))
    trace (run env (JStr T) trace).
Proof.
  intros HT Hnone.
  eapply Forall2_impl; [by apply run_without_success|].
  intros [[r q] up] o [-> Hkept]. cbn [fst snd target] in *. split; [done|].
  intros [Hpost _]%list_elem_of_filter.
  apply (invocation_with_token env r q up (JStr T) T); [done| |done].
  by destruct T.
Qed.

Lemma failed_exchange_keeps_credential_witness :
  Forall2
    (λ step o,
       holder o = JStr "gho_a" ∧
       (step.1.(target) ∈ invocation_routes →
        calls o = [api_call step.1.(target) "token gho_a"]))
    [(Sample.callback (Sample.with_code "c"), Sample.answering Sample.access_denied);
     (Sample.invoke ListRepos, Sample.answering Sample.repos);
     (Sample.callback (Sample.with_code "c"), Sample.unreachable);
     (Sample.invoke GetUser, Sample.unreachable)]
    (run Sample.configured (JStr "gho_a")
       [(Sample.callback (Sample.with_code "c"), Sample.answering Sample.access_denied);
        (Sample.invoke ListRepos, Sample.answering Sample.repos);
        (Sample.callback (Sample.with_code "c"), Sample.unreachable);
        (Sample.invoke GetUser, Sample.unreachable)]).
Proof.
  apply (failed_exchange_keeps_credential (num := int_numbers) Sample.configured
           "gho_a").
  - discriminate.
  - vm_compute. repeat constructor; discriminate.
Defined.

(** ** Further properties: the JSON text sent to the token endpoint *)

Lemma JsVal_nested_ind `{JsNumber} (P : JsVal → Prop) :
  P JUndef → P JNull → (∀ b, P (JBool b)) → (∀ n, P (JNum n)) →
  (∀ s, P (JStr s)) →
  (∀ l, Forall P l → P (JArr l)) →
  (∀ kvs, Forall (λ kv, P kv.2) kvs → P (JObj kvs)) →
  ∀ v, P v.
Proof.
  intros HU HN HB HM HS HA HO. fix IH 1. intros [| |b|n|s|l|kvs].
  - exact HU.
  - exact HN.
  - apply HB.
  - apply HM.
  - apply HS.
  - apply HA. induction l as [|x l IHl]; constructor; [apply IH | exact IHl].
  - apply HO. induction kvs as [|[k x] kvs IHkvs]; constructor;
      [apply IH | exact IHkvs].
Qed.

Lemma json_escape_single_line (c : ascii) : single_line (json_escape c) = true.
Proof. destruct c as [[] [] [] [] [] [] [] []]; reflexivity. Qed.

Lemma single_line_app (s t : string) :
  single_line (s +:+ t) = single_line s && single_line t.
Proof. apply string_forall_app. Qed.

Lemma json_quote_single_line (s : string) : single_line (json_quote s) = true.
Proof.
  unfold json_quote. rewrite !single_line_app.
  assert (single_line (json_escape_all s) = true) as ->; [|reflexivity].
  induction s as [|c s IH]; [reflexivity|].
  cbn [json_escape_all]. by rewrite single_line_app, json_escape_single_line, IH.
Qed.

Lemma join_single_line (sep : string) (l : list string) :
  single_line sep = true →
  Forall (λ s, single_line s = true) l →
  single_line (join sep l) = true.
Proof.
  intros Hsep Hl. induction Hl as [|x l Hx Hl IH]; [reflexivity|].
  destruct l as [|y l]; [exact Hx|].
  rewrite join_cons, !single_line_app, Hx, Hsep. exact IH.
Qed.

(** The text [JSON.stringify] produces has no raw control character. *)
Lemma json_text_single_line `{JsNumber} (v : JsVal) :
  numbers_print_plainly v = true → single_line (json_text v) = true.
Proof.
  induction v as [| |b|n|s|l IH|kvs IH] using JsVal_nested_ind;
    cbn [json_text numbers_print_plainly]; intros Hnum.
  - reflexivity.
  - reflexivity.
  - by destruct b.
  - by destruct (num_finite n).
  - apply json_quote_single_line.
  - rewrite !single_line_app.
    apply andb_true_intro; split; [reflexivity|].
    apply andb_true_intro; split; [|reflexivity].
    apply join_single_line; [reflexivity|].
    induction l as [|x l IHl]; [constructor|].
    apply Forall_cons in IH as [Hx IH].
    cbn [forallb] in Hnum. apply andb_prop in Hnum as [Hnx Hnum].
    cbn [map]. constructor; [by apply Hx | by apply IHl].
  - rewrite !single_line_app.
    apply andb_true_intro; split; [reflexivity|].
    apply andb_true_intro; split; [|reflexivity].
    apply join_single_line; [reflexivity|].
    induction kvs as [|[k x] kvs IHkvs]; [constructor|].
    apply Forall_cons in IH as [Hx IH].
    cbn [forallb snd] in Hnum, Hx. apply andb_prop in Hnum as [Hnx Hnum].
    specialize (IHkvs IH Hnum).
    destruct x; try exact IHkvs; constructor; try exact IHkvs;
      by rewrite !single_line_app, json_quote_single_line, Hx.
Qed.

(** X14. The body the callback sends to the token endpoint is one line of
    JSON, whatever the client put in [code] and whatever the configured
    identifier and secret contain: control characters, line breaks among
    them, only occur escaped.  (The values of a query string hold no
    numbers; a number in a value is asked to print plainly.) *)
Theorem token_request_body_is_one_line {num : JsNumber}
    (env : gmap string string) (q : gmap string JsVal)
    (up : Upstream) (tok : JsVal) (call : OutReq) :
  call ∈ calls (serve env (mkRequest AuthGithubCallback q) up tok) →
  numbers_print_plainly (code_of q) = true →
  ∃ body,
    req_body call = Some body ∧
    single_line body = true ∧
    count_char (ascii_of_N 10) body = 0.
Proof.
  rewrite serve_calls. cbn [target query]. intros Hcall Hnum.
  repeat case_match; try (by apply elem_of_nil in Hcall).
  apply list_elem_of_singleton in Hcall as ->.
  eexists. split; [reflexivity|].
  match goal with
  | |- single_line ?b = true ∧ _ => assert (Hline : single_line b = true)
  end.
  { apply (json_text_single_line (JObj [_; _; _])).
    cbn [numbers_print_plainly forallb snd]. by rewrite Hnum. }
  split; [exact Hline|].
  by apply (count_char_excluded (λ c, negb (raw_control c))).
Qed.

Lemma token_request_body_is_one_line_witness :
  ∃ body,
    req_body (token_call "id" "secret"
                (code_of (Sample.with_code ("a" +:+ newline +:+ "b")))) = Some body ∧
    single_line body = true ∧
    count_char (ascii_of_N 10) body = 0.
Proof.
  apply (token_request_body_is_one_line (num := int_numbers) Sample.configured
           (Sample.with_code ("a" +:+ newline +:+ "b"))
           Sample.unreachable Sample.null).
  - vm_compute. constructor.
  - reflexivity.
Defined.

(** ** Further properties: what a handler does not look at *)

(** X15. Only the invocation routes read the credential slot: for every
    other route (GET /auth/github, the callback, the discovery routes)
    the response, the outbound call and the console lines are the same
    whatever the slot holds. *)
Theorem only_invocations_read_slot {num : JsNumber}
    (env : gmap string string) (req : Request) (up : Upstream)
    (tok tok' : JsVal) :
  target req ∉ invocation_routes →
  response (serve env req up tok) = response (serve env req up tok') ∧
  calls (serve env req up tok) = calls (serve env req up tok') ∧
  logs (serve env req up tok) = logs (serve env req up tok').
Proof.
  intros Hr.
  destruct req as [[] q]; cbn [target] in Hr;
    try (exfalso; apply Hr; vm_compute; by repeat constructor);
    serve_paths; done.
Qed.

Lemma only_invocations_read_slot_witness :
  response (serve Sample.configured (Sample.callback (Sample.with_code "c"))
              (Sample.answering (Sample.grant "gho_b")) Sample.null)
    = response (serve Sample.configured (Sample.callback (Sample.with_code "c"))
                  (Sample.answering (Sample.grant "gho_b")) (Sample.token "gho_a")) ∧
  calls (serve Sample.configured (Sample.callback (Sample.with_code "c"))
           (Sample.answering (Sample.grant "gho_b")) Sample.null)
    = calls (serve Sample.configured (Sample.callback (Sample.with_code "c"))
               (Sample.answering (Sample.grant "gho_b")) (Sample.token "gho_a")) ∧
  logs (serve Sample.configured (Sample.callback (Sample.with_code "c"))
          (Sample.answering (Sample.grant "gho_b")) Sample.null)
    = logs (serve Sample.configured (Sample.callback (Sample.with_code "c"))
              (Sample.answering (Sample.grant "gho_b")) (Sample.token "gho_a")).
Proof.
  apply (only_invocations_read_slot (num := int_numbers)).
  vm_compute. intros Hin.
  repeat (apply elem_of_cons in Hin as [Hin|Hin]; [discriminate Hin|]).
  by apply elem_of_nil in Hin.
Defined.

(** X16. No handler looks at the HTTP status of an upstream response:
    against two upstreams that answer alike but for the status, a request
    is served alike.  In particular an upstream error that comes with a
    JSON body is relayed by an invocation route with status 200. *)
Theorem upstream_status_is_ignored {num : JsNumber}
    (env : gmap string string) (req : Request) (up up' : Upstream)
    (tok : JsVal) :
  same_bodies up up' →
  serve env req up tok = serve env req up' tok.
Proof.
  intros Hsame.
  destruct req as [[] q]; try reflexivity; run_handler;
    repeat first
      [ progress cbn -[JSON_stringify getField toString truthy env_truthy]
      | match goal with
        | |- context [env_truthy ?e ?k] => destruct (env_truthy e k) eqn:?
        | |- context [truthy ?v] => destruct (truthy v) eqn:?
        | |- context [toString ?v] => destruct (toString v) eqn:?
        end ];
    try reflexivity;
    match goal with
    | |- context [up ?c] =>
        specialize (Hsame c); destruct (up c) as [|? ?], (up' c) as [|? ?]
    end; try done; subst; reflexivity.
Qed.

Lemma upstream_status_is_ignored_witness :
  serve Sample.configured (Sample.invoke GetUser)
    (λ _, FetchResolves 401 (Normal (JObj [("message", JStr "Bad credentials")])))
    (Sample.token "gho_a")
  = serve Sample.configured (Sample.invoke GetUser)
      (Sample.answering (JObj [("message", JStr "Bad credentials")]))
      (Sample.token "gho_a").
Proof.
  apply (upstream_status_is_ignored (num := int_numbers)).
  intros call. reflexivity.
Defined.
